(** * Skin-lesion classifier web service (app.py): model and verified properties

    The development follows app.py top-down:

    - [B64]: binary64 helpers on top of Rocq's primitive floats (Python's
      [float] is an IEEE 754 binary64 number): correctly rounded decimal
      conversion, as done by [float(str)] and [round(x, 2)];
    - [Py]: the pieces of the Python runtime the handlers go through
      (exceptions, JSON-shaped values, [float()], [math.*], [x ** 2],
      [round], subscripting, [dict.get], iteration, [numpy.argmax]);
    - [App]: the module itself: [SKIN_CLASSES], [DISEASE_INFO],
      [calculate_distance], [uploaded] and [nearby_hospitals].

    The C library functions behind [math.sin], [math.cos], [math.atan2] and
    [pow] are not part of the program: they are an interface ([Libm]) that
    every definition of [App] is parameterised by. *)

From Stdlib Require Import ZArith List String Ascii Bool Lia Floats.
From stdpp Require Import base option list gmap pretty.
Import ListNotations.

Set Warnings "-inexact-float,-register-all".
#[local] Open Scope Z_scope.

(* ================================================================== *)
(** * Binary64 *)
(* ================================================================== *)

Module B64.

(** The value [(-1)^s * m * 10^e], rounded to the nearest binary64 number,
    ties to even.  A non-negative exponent gives an integer, rounded by
    [binary_round]; a negative one gives a quotient, which
    [SFdiv_core_binary] truncates with the position of the remainder so
    that [binary_round_aux] rounds it once. *)
Definition of_decimal (s : bool) (m : Z) (e : Z) : spec_float :=
  match m with
  | Zpos p =>
      match e with
      | Zneg k =>
          let '(q, e', l) := SFdiv_core_binary prec emax (Zpos p) 0 (10 ^ Zpos k) 0 in
          binary_round_aux prec emax s q e' l
      | _ =>
          match Zpos p * 10 ^ e with
          | Zpos n => binary_round prec emax s n 0
          | _ => S754_zero s
          end
      end
  | _ => S754_zero s
  end.

(** The integer nearest to [m * 2^e], ties to even ([m], the result >= 0). *)
Definition round_half_even_scaled (m : Z) (e : Z) : Z :=
  match e with
  | Zneg k =>
      let d := 2 ^ Zpos k in
      let q := m / d in
      let r := m mod d in
      match 2 * r ?= d with
      | Lt => q
      | Gt => q + 1
      | Eq => if Z.even q then q else q + 1
      end
  | _ => m * 2 ^ e
  end.

(** [round(x, 2)] on a float ([float.__round__] with [ndigits = 2]): infinities,
    NaN and zeros are returned as they are; any other [x] goes to the decimal
    with two fractional digits nearest to its exact value (ties to even), and
    that decimal back to the nearest float. *)
Definition round2 (x : float) : float :=
  match Prim2SF x with
  | S754_finite s m e =>
      SF2Prim (of_decimal s (round_half_even_scaled (Zpos m * 100) e) (-2))
  | _ => x
  end.

(** Conversion of a Python [int] ([PyLong_AsDouble]): nearest float, [None]
    when the result is out of range. *)
Definition of_int (n : Z) : option float :=
  let f := SF2Prim (binary_normalize prec emax n 0 false) in
  if is_infinity f then None else Some f.

(** C's [copysign]. *)
Definition copysign (x y : float) : float :=
  if get_sign y then (- abs x)%float else abs x.

(** The order of the non-NaN numbers, read off their representation: a
    rank in the lexicographic order on triples of integers. *)
Definition rank (a : spec_float) : Z * Z * Z :=
  match a with
  | S754_nan | S754_zero _ => (0, 0, 0)
  | S754_infinity s => (if s then -2 else 2, 0, 0)
  | S754_finite s m e => if s then (-1, - e, Zneg m) else (1, e, Zpos m)
  end.

Definition lex_lt (p q : Z * Z * Z) : Prop :=
  let '(p1, p2, p3) := p in
  let '(q1, q2, q3) := q in
  p1 < q1 \/ (p1 = q1 /\ (p2 < q2 \/ (p2 = q2 /\ p3 < q3))).

Definition not_nan (a : spec_float) : Prop :=
  match a with
  | S754_nan => False
  | _ => True
  end.


End B64.

(* ================================================================== *)
(** * The Python runtime, as far as app.py goes through it *)
(* ================================================================== *)

Module Py.

#[local] Open Scope string_scope.

(** ** Exceptions and the computations that may raise them *)

Inductive exn :=
| KeyError (key_repr : string)
| TypeError (msg : string)
| ValueError (msg : string)
| AttributeError (msg : string)
| IndexError (msg : string)
| OverflowError (msg : string)
| OtherException (msg : string).

(** [str(e)]; a [KeyError] holds the repr of its key, which is what it
    prints. *)
Definition str_exn (e : exn) : string :=
  match e with
  | KeyError m | TypeError m | ValueError m | AttributeError m | IndexError m
  | OverflowError m | OtherException m => m
  end.

Inductive result (A : Type) :=
| Ok (a : A)
| Raise (e : exn).
Arguments Ok {A} a.
Arguments Raise {A} e.

Definition bind {A B} (c : result A) (k : A -> result B) : result B :=
  match c with
  | Ok a => k a
  | Raise e => Raise e
  end.

Notation "'let*' x ':=' c 'in' k" := (bind c (fun x => k))
  (at level 10, x name, c at level 100, k at level 200).

(** ** Values: what [json()] returns and what the handlers pass around *)

Inductive value :=
| VNone
| VBool (b : bool)
| VInt (n : Z)
| VFloat (f : float)
| VStr (s : string)
| VList (l : list value)
| VDict (d : list (string * value)).

(** ** [float(str)] *)

Definition is_space (c : ascii) : bool :=
  let n := Z.of_N (N_of_ascii c) in
  (((9 <=? n) && (n <=? 13)) || ((28 <=? n) && (n <=? 32)))%Z.

Definition digit_val (c : ascii) : option Z :=
  let n := Z.of_N (N_of_ascii c) in
  if ((48 <=? n) && (n <=? 57))%Z then Some (n - 48) else None.

Definition to_lower (c : ascii) : ascii :=
  let n := N_of_ascii c in
  if ((65 <=? n) && (n <=? 90))%N then ascii_of_N (n + 32) else c.

Fixpoint lstrip (s : list ascii) : list ascii :=
  match s with
  | c :: s' => if is_space c then lstrip s' else s
  | [] => []
  end.

Definition strip (s : list ascii) : list ascii :=
  rev (lstrip (rev (lstrip s))).

(** Digits after the first one of a digit part: [(["_"] digit)*].  Returns
    the accumulated number, the count of digits and what is left. *)
Fixpoint digits_tail (acc cnt : Z) (s : list ascii) : Z * Z * list ascii :=
  match s with
  | c :: s' =>
      match digit_val c with
      | Some d => digits_tail (10 * acc + d) (cnt + 1) s'
      | None =>
          if Ascii.eqb c "_" then
            match s' with
            | c' :: s'' =>
                match digit_val c' with
                | Some d => digits_tail (10 * acc + d) (cnt + 1) s''
                | None => (acc, cnt, s)
                end
            | [] => (acc, cnt, s)
            end
          else (acc, cnt, s)
      end
  | [] => (acc, cnt, [])
  end.

(** [digitpart ::= digit (["_"] digit)*], continuing the number [acc]. *)
Definition digitpart (acc : Z) (s : list ascii) : option (Z * Z * list ascii) :=
  match s with
  | c :: s' =>
      match digit_val c with
      | Some d => Some (digits_tail (10 * acc + d) 1 s')
      | None => None
      end
  | [] => None
  end.

(** [number ::= [digitpart] "." digitpart | digitpart ["."]]: all the digits
    as one integer, and how many of them are fractional. *)
Definition number (s : list ascii) : option (Z * Z * list ascii) :=
  match s with
  | "."%char :: s' => digitpart 0 s'
  | _ =>
      match digitpart 0 s with
      | Some (m, _, "."%char :: r) =>
          match digitpart m r with
          | Some (m', n, r') => Some (m', n, r')
          | None => Some (m, 0, r)
          end
      | Some (m, _, r) => Some (m, 0, r)
      | None => None
      end
  end.

Definition sign (s : list ascii) : bool * list ascii :=
  match s with
  | "-"%char :: s' => (true, s')
  | "+"%char :: s' => (false, s')
  | _ => (false, s)
  end.

(** [exponent ::= ("e" | "E") [sign] digitpart], optional. *)
Definition exponent (s : list ascii) : option (Z * list ascii) :=
  match s with
  | c :: s' =>
      if Ascii.eqb (to_lower c) "e" then
        let '(neg, s'') := sign s' in
        match digitpart 0 s'' with
        | Some (x, _, r) => Some (if neg then - x else x, r)
        | None => None
        end
      else Some (0, s)
  | [] => Some (0, [])
  end.

(** The string-to-float conversion: surrounding white space is dropped, then
    [[sign] (floatnumber | "inf" | "infinity" | "nan")], letters in any case.
    [None] stands for the [ValueError].  Digits and spaces are the ASCII
    ones. *)
Definition float_of_string (s : string) : option float :=
  let '(neg, body) := sign (strip (list_ascii_of_string s)) in
  let word := string_of_list_ascii (map to_lower body) in
  if (word =? "inf") || (word =? "infinity") then
    Some (if neg then neg_infinity else infinity)
  else if word =? "nan" then Some nan
  else
    match number body with
    | Some (m, nfrac, rest) =>
        match exponent rest with
        | Some (x, []) => Some (SF2Prim (B64.of_decimal neg m (x - nfrac)))
        | _ => None
        end
    | None => None
    end.

(** [float(v)]. *)
Definition py_float (v : value) : result float :=
  match v with
  | VFloat f => Ok f
  | VInt n =>
      match B64.of_int n with
      | Some f => Ok f
      | None => Raise (OverflowError "int too large to convert to float")
      end
  | VBool b => Ok (if b then 1%float else 0%float)
  | VStr s =>
      match float_of_string s with
      | Some f => Ok f
      | None => Raise (ValueError ("could not convert string to float: '" ++ s ++ "'"))
      end
  | VNone | VList _ | VDict _ =>
      Raise (TypeError "float() argument must be a string or a real number")
  end.


(** ** The [math] module and float arithmetic *)

(** The C library functions called by [math.sin], [math.cos], [math.atan2]
    and by [float.__pow__].  Their results are the platform's; the program
    is modelled for every implementation. *)
Class Libm := {
  libm_sin : float -> float;
  libm_cos : float -> float;
  libm_atan2 : float -> float -> float;
  libm_pow : float -> float -> float
}.

(** [math_1] of mathmodule.c, for a function that cannot overflow: a NaN
    result for a non-NaN argument and an infinite result for a finite
    argument are a [ValueError]. *)
Definition math_1 (func : float -> float) (x : float) : result float :=
  let r := func x in
  if is_nan r && negb (is_nan x) then Raise (ValueError "math domain error")
  else if is_infinity r && is_finite x then Raise (ValueError "math domain error")
  else Ok r.

(** [math.radians]: multiplication by [pi / 180]. *)
Definition degToRad : float := 0.017453292519943295%float.
Definition pi : float := 3.141592653589793%float.

Definition math_radians (x : float) : float := (x * degToRad)%float.

Definition math_sqrt (x : float) : result float := math_1 PrimFloat.sqrt x.

(** [m_atan2] of mathmodule.c settles NaN, infinite arguments and a zero
    [y] itself and leaves the rest to the C library. *)
Definition m_atan2 `{Libm} (y x : float) : float :=
  if is_nan x || is_nan y then nan
  else if is_infinity y then
    if is_infinity x then
      if (B64.copysign 1 x =? 1)%float then B64.copysign (0.25 * pi)%float y
      else B64.copysign (0.75 * pi)%float y
    else B64.copysign (0.5 * pi)%float y
  else if is_infinity x || (y =? 0)%float then
    if (B64.copysign 1 x =? 1)%float then B64.copysign 0 y
    else B64.copysign pi y
  else libm_atan2 y x.

(** [math_2], as [math.atan2] goes through it. *)
Definition math_2 (func : float -> float -> float) (x y : float) : result float :=
  let r := func x y in
  if is_nan r && negb (is_nan x) && negb (is_nan y) then
    Raise (ValueError "math domain error")
  else if is_infinity r && is_finite x && is_finite y then
    Raise (OverflowError "math range error")
  else Ok r.

Section Math.
Context `{Libm}.

Definition math_sin (x : float) : result float := math_1 libm_sin x.
Definition math_cos (x : float) : result float := math_1 libm_cos x.
Definition math_atan2 (y x : float) : result float := math_2 m_atan2 y x.

(** [iv ** 2] on a float ([float_pow] with [iw = 2.0]): NaN, infinities,
    zeros and one are settled without the C library; a negative base is
    negated first (the exponent is even, so the result is not negated
    back); an infinite result of [pow] is an [OverflowError]. *)
Definition float_pow_2 (iv : float) : result float :=
  if is_nan iv then Ok iv
  else if is_infinity iv then Ok (abs iv)
  else if (iv =? 0)%float then Ok 0%float
  else
    let iv := if (iv <? 0)%float then (- iv)%float else iv in
    if (iv =? 1)%float then Ok 1%float
    else
      let ix := libm_pow iv 2 in
      if is_infinity ix
      then Raise (OverflowError "(34, 'Numerical result out of range')")
      else Ok ix.

End Math.

(** ** Containers *)

Fixpoint assoc (k : string) (d : list (string * value)) : option value :=
  match d with
  | (k', v) :: d' => if k' =? k then Some v else assoc k d'
  | [] => None
  end.

(** [v[k]] with a string key. *)
Definition subscript (v : value) (k : string) : result value :=
  match v with
  | VDict d =>
      match assoc k d with
      | Some x => Ok x
      | None => Raise (KeyError ("'" ++ k ++ "'"))
      end
  | VStr _ => Raise (TypeError "string indices must be integers, not 'str'")
  | VList _ => Raise (TypeError "list indices must be integers or slices, not str")
  | VNone | VBool _ | VInt _ | VFloat _ =>
      Raise (TypeError "object is not subscriptable")
  end.

(** [v.get(k, default)]: a method of dictionaries only. *)
Definition get (v : value) (k : string) (default : value) : result value :=
  match v with
  | VDict d =>
      match assoc k d with
      | Some x => Ok x
      | None => Ok default
      end
  | _ => Raise (AttributeError "object has no attribute 'get'")
  end.

Fixpoint chars (s : string) : list value :=
  match s with
  | String c s' => VStr (String c EmptyString) :: chars s'
  | EmptyString => []
  end.

(** The items a [for] loop over [v] goes through: the elements of a list,
    the keys of a dictionary, the characters of a string. *)
Definition iter (v : value) : result (list value) :=
  match v with
  | VList l => Ok l
  | VDict d => Ok (map (fun kv => VStr (fst kv)) d)
  | VStr s => Ok (chars s)
  | VNone | VBool _ | VInt _ | VFloat _ => Raise (TypeError "object is not iterable")
  end.

(** [needle in s] on strings. *)
Fixpoint contains (needle s : string) : bool :=
  String.prefix needle s
  || match s with
     | String _ s' => contains needle s'
     | EmptyString => false
     end.

(** [not v] for the value of [request.args.get]: absent or empty. *)
Definition not_ (v : option string) : bool :=
  match v with
  | None => true
  | Some s => s =? ""
  end.

(** ** [numpy.argmax] over the flattened array *)

(** The scan of numpy's argmax loop from position [i] on: [mp] is the
    largest entry so far and [best] its position; an entry replaces it when
    it is not [<= mp], and a NaN ends the scan. *)
Fixpoint argmax_from (mp : float) (best i : nat) (l : list float) : nat :=
  match l with
  | x :: l' =>
      if negb (x <=? mp)%float then
        if is_nan x then i else argmax_from x i (S i) l'
      else argmax_from mp best (S i) l'
  | [] => best
  end.

Definition np_argmax (a : list (list float)) : result nat :=
  match concat a with
  | x :: l => Ok (if is_nan x then 0%nat else argmax_from x 0 1 l)
  | [] => Raise (ValueError "attempt to get argmax of an empty sequence")
  end.

(** [a[0][j]] on a two-dimensional array. *)
Definition index_0 (a : list (list float)) (j : nat) : result float :=
  match a with
  | row :: _ =>
      match nth_error row j with
      | Some x => Ok x
      | None => Raise (IndexError "index out of bounds")
      end
  | [] => Raise (IndexError "index 0 is out of bounds for axis 0 with size 0")
  end.

End Py.

(* ================================================================== *)
(** * app.py *)
(* ================================================================== *)

Module App.
Import Py.

#[local] Open Scope string_scope.

(** ** Skin disease classes *)

Definition SKIN_CLASSES : gmap Z string :=
  list_to_map [
    (0, "Actinic Keratoses (Solar Keratoses) / Bowenâ€™s disease");
    (1, "Basal Cell Carcinoma");
    (2, "Benign Keratosis");
    (3, "Dermatofibroma");
    (4, "Melanoma");
    (5, "Melanocytic Nevi");
    (6, "Vascular skin lesion")
  ].

(** ** Severity, precautions, food and consultation info *)

Record info := {
  severity : string;
  precautions : list string;
  food_precautions : list string;
  consultation : string
}.

Definition DISEASE_INFO : gmap Z info :=
  list_to_map [
    (0, {| severity := "Moderate to High";
           precautions := [
             "Use sunscreen SPF 30+ daily.";
             "Avoid direct sunlight.";
             "Regularly monitor for changes." ];
           food_precautions := [
             "Eat fresh fruits and vegetables.";
             "Drink enough water.";
             "Avoid junk and oily food.";
             "Reduce sugar intake.";
             "Avoid alcohol and smoking." ];
           consultation := "Dermatologist consultation strongly recommended." |});
    (1, {| severity := "High";
           precautions := [
             "Avoid UV exposure.";
             "Do not scratch the lesion.";
             "Track lesion growth with photos." ];
           food_precautions := [
             "Eat healthy home-cooked food.";
             "Include fruits and vegetables daily.";
             "Drink enough water.";
             "Avoid alcohol completely.";
             "Avoid processed and junk food." ];
           consultation := "Immediate dermatologist visit recommended." |});
    (2, {| severity := "Low to Moderate";
           precautions := [
             "Avoid skin irritation.";
             "Moisturize dry skin.";
             "Monitor for color or size changes." ];
           food_precautions := [
             "Maintain a balanced diet.";
             "Drink enough water.";
             "Reduce oily and spicy food.";
             "Avoid excess sugar.";
             "Prefer home food." ];
           consultation := "Routine dermatology checkup advised." |});
    (3, {| severity := "Low";
           precautions := [
             "Avoid trauma to the lesion.";
             "Keep skin clean.";
             "Watch for sudden size or texture changes." ];
           food_precautions := [
             "Eat nutritious food.";
             "Include proteins like pulses or eggs.";
             "Drink enough water.";
             "Avoid junk food.";
             "Avoid excessive caffeine." ];
           consultation := "Non-urgent dermatology visit recommended." |});
    (4, {| severity := "Very High (dangerous)";
           precautions := [
             "Avoid sun completely.";
             "Do not delay medical checkup.";
             "Monitor ABCDE(Asymmetry, Border irregularity, Color variation, Diameter(>6 mm), Evolving) signs." ];
           food_precautions := [
             "Eat antioxidant-rich fruits and vegetables.";
             "Drink plenty of water.";
             "Avoid alcohol and smoking.";
             "Avoid processed food.";
             "Maintain a healthy diet to support treatment." ];
           consultation := "Urgent dermatologist or oncologist appointment needed." |});
    (5, {| severity := "Low (but monitor)";
           precautions := [
             "Monitor mole changes.";
             "Use sunscreen daily.";
             "Avoid self-removal." ];
           food_precautions := [
             "Eat fresh fruits and vegetables.";
             "Drink enough water.";
             "Avoid junk food.";
             "Reduce sugar intake.";
             "Maintain a healthy lifestyle." ];
           consultation := "Consult dermatologist if changes appear." |});
    (6, {| severity := "Low to Moderate";
           precautions := [
             "Avoid scratching.";
             "Keep the area clean.";
             "Watch for sudden swelling or bleeding." ];
           food_precautions := [
             "Drink enough water.";
             "Eat balanced meals.";
             "Reduce salty food.";
             "Avoid alcohol.";
             "Avoid junk food." ];
           consultation := "Dermatology consultation recommended." |})
  ].

(** [d[k]] on one of the two tables above. *)
Definition table_get {A} (d : gmap Z A) (k : Z) : result A :=
  match d !! k with
  | Some x => Ok x
  | None => Raise (KeyError (pretty k))
  end.

Section Handlers.
Context `{Libm}.

(** ** Haversine distance calculation *)

(** The body of the [try]. *)
Definition calculate_distance_try (lat1 lon1 lat2 lon2 : value) : result float :=
  let R := 6371%float in
  let* lat1 := py_float lat1 in
  let lat1 := math_radians lat1 in
  let* lon1 := py_float lon1 in
  let lon1 := math_radians lon1 in
  let* lat2 := py_float lat2 in
  let lat2 := math_radians lat2 in
  let* lon2 := py_float lon2 in
  let lon2 := math_radians lon2 in
  let dlat := (lat2 - lat1)%float in
  let dlon := (lon2 - lon1)%float in
  let* s1 := math_sin (dlat / 2) in
  let* p1 := float_pow_2 s1 in
  let* c1 := math_cos lat1 in
  let* c2 := math_cos lat2 in
  let* s2 := math_sin (dlon / 2) in
  let* p2 := float_pow_2 s2 in
  let a := (p1 + c1 * c2 * p2)%float in
  let* q1 := math_sqrt a in
  let* q2 := math_sqrt (1 - a) in
  let* t := math_atan2 q1 q2 in
  let c := (2 * t)%float in
  Ok (B64.round2 (R * c)).

(** [calculate_distance]: the bare [except:] turns every exception into
    [None]. *)
Definition calculate_distance (lat1 lon1 lat2 lon2 : value) : option float :=
  match calculate_distance_try lat1 lon1 lat2 lon2 with
  | Ok d => Some d
  | Raise _ => None
  end.

(** ** Prediction upload handler *)

(** What [uploaded] hands to the template. *)
Record uploaded_page := {
  img_file : string;
  predictions : string;
  acc : float;
  severity_level : string;
  page_precautions : list string;
  page_food_precautions : list string;
  page_consultation : string
}.

(** The class picked from the model's output. *)
Definition pred_class (prediction : list (list float)) : result nat :=
  np_argmax prediction.

(** [uploaded], from the output of [model.predict] on. *)
Definition uploaded (filename : string) (prediction : list (list float))
  : result uploaded_page :=
  let* pred_class := pred_class prediction in
  let* disease := table_get SKIN_CLASSES (Z.of_nat pred_class) in
  let* p := index_0 prediction pred_class in
  let accuracy := (p * 100)%float in
  let* info := table_get DISEASE_INFO (Z.of_nat pred_class) in
  Ok {| img_file := filename;
        predictions := disease;
        acc := B64.round2 accuracy;
        severity_level := severity info;
        page_precautions := precautions info;
        page_food_precautions := food_precautions info;
        page_consultation := consultation info |}.

(** ** Nearby hospitals API *)

Definition DEFAULT_LAT : string := "16.3067".
Definition DEFAULT_LNG : string := "80.4365".

Record hospital := {
  name : value;
  address : value;
  lat : value;
  lng : value;
  distance : option float
}.

(** The JSON object of the response. *)
Inductive response :=
| status_ok (latitude_used longitude_used : string) (hospitals : list hospital)
| status_error (message : string).

(** The location the lookup works with: the one of the request, or the
    default one when [lat] or [lng] is absent or empty. *)
Definition location (lat lng : option string) : string * string :=
  match lat, lng with
  | Some a, Some b => if not_ lat || not_ lng then (DEFAULT_LAT, DEFAULT_LNG) else (a, b)
  | _, _ => (DEFAULT_LAT, DEFAULT_LNG)
  end.

(** A result as the provider sends them: an object with [lat] and [lon],
    whose [address], when it has one, is an object. *)
Definition complete (r : value) : bool :=
  match r with
  | VDict d =>
      match assoc "lat" d, assoc "lon" d, assoc "address" d with
      | Some _, Some _, (None | Some (VDict _)) => true
      | _, _, _ => false
      end
  | _ => false
  end.

(** One turn of the loop: the entry appended for the result [r]. *)
Definition entry (lat lng : string) (r : value) : result hospital :=
  let* rlat := subscript r "lat" in
  let* rlon := subscript r "lon" in
  let dist := calculate_distance (VStr lat) (VStr lng) rlat rlon in
  let* nm := get r "display_name" (VStr "Unknown Hospital") in
  let* ad := get r "address" (VDict []) in
  let* road := get ad "road" (VStr "Not Provided") in
  let* la := subscript r "lat" in
  let* lo := subscript r "lon" in
  Ok {| name := nm; address := road; lat := la; lng := lo; distance := dist |}.

(** What the loop puts in the entry [h] for the result [r]: its coordinates
    as they came, and the distance computed from them. *)
Definition entry_of (la ln : string) (r : value) (h : hospital) : Prop :=
  exists rlat rlon : value,
    subscript r "lat" = Ok rlat
    /\ subscript r "lon" = Ok rlon
    /\ lat h = rlat
    /\ lng h = rlon
    /\ distance h = calculate_distance (VStr la) (VStr ln) rlat rlon.

(** The loop: [hospitals] grows by one entry per result, and the first
    exception leaves it. *)
Fixpoint for_results (lat lng : string) (hospitals : list hospital)
    (results : list value) : result (list hospital) :=
  match results with
  | r :: rest =>
      let* h := entry lat lng r in
      for_results lat lng (hospitals ++ [h]) rest
  | [] => Ok hospitals
  end.

(** [nearby_hospitals]: [lat] and [lng] are the query parameters, [fetched]
    is what [requests.get(url, headers=headers).json()] gave: the decoded
    JSON, or the exception it raised. *)
Definition nearby_hospitals (lat lng : option string) (fetched : result value)
  : response :=
  let '(lat, lng) := location lat lng in
  let outcome :=
    let* results := fetched in
    let* items := iter results in
    for_results lat lng [] items in
  match outcome with
  | Ok hospitals => status_ok lat lng hospitals
  | Raise e => status_error (str_exn e)
  end.

End Handlers.

End App.

(* ================================================================== *)
(** * A small C library to run the model with *)
(* ================================================================== *)

(** Truncated power series in binary64 arithmetic.  They stand in for the
    platform's library when the model is evaluated and when a theorem is
    applied to an input; the theorems themselves hold for every [Libm]. *)
Module RefLibm.

#[local] Open Scope float_scope.

(** [acc + t1 + t2 + ...] where [t0 = term] and
    [t(k+1) = - t(k) * x2 / ((j + 2k + 1) * (j + 2k + 2))]. *)
Fixpoint alt_factorial_series (n : nat) (j term acc x2 : float) : float :=
  match n with
  | O => acc
  | S n' =>
      let term' := - term * x2 / ((j + 1) * (j + 2)) in
      alt_factorial_series n' (j + 2) term' (acc + term') x2
  end.

Definition sin_series (x : float) : float :=
  alt_factorial_series 24 1 x x (x * x).

Definition cos (x : float) : float :=
  alt_factorial_series 24 0 1 1 (x * x).

(** Odd by construction, and [sin (+-0) = +-0]. *)
Definition sin (x : float) : float :=
  if x =? 0 then x
  else if x <? 0 then - sin_series (- x)
  else sin_series x.

(** [z - z^3/3 + z^5/5 - ...], [n] terms after the first. *)
Fixpoint atan_series (n : nat) (j power acc z2 : float) : float :=
  match n with
  | O => acc
  | S n' =>
      let power' := - power * z2 in
      atan_series n' (j + 2) power' (acc + power' / (j + 2)) z2
  end.

(** [atan] on [0, 1]: two halvings of the angle, then the series. *)
Definition atan_unit (t : float) : float :=
  let half u := u / (1 + PrimFloat.sqrt (1 + u * u)) in
  let z := half (half t) in
  4 * atan_series 24 1 z z (z * z).

Definition atan_pos (t : float) : float :=
  if t <=? 1 then atan_unit t else Py.pi / 2 - atan_unit (1 / t).

Definition atan (t : float) : float :=
  if t <? 0 then - atan_pos (- t) else atan_pos t.

Definition atan2 (y x : float) : float :=
  if x =? 0 then (if y <? 0 then - (Py.pi / 2) else Py.pi / 2)
  else if 0 <? x then atan (y / x)
  else if y <? 0 then atan (y / x) - Py.pi
  else atan (y / x) + Py.pi.

(** The program raises to the power 2 only. *)
Definition pow (x y : float) : float :=
  if y =? 2 then x * x else nan.

#[export] Instance libm : Py.Libm := {|
  Py.libm_sin := sin;
  Py.libm_cos := cos;
  Py.libm_atan2 := atan2;
  Py.libm_pow := pow
|}.

End RefLibm.

(** The same library with a cosine kept within [-1, 1] on finite arguments,
    as the cosine of a C library is. *)
Module RefLibmBounded.

#[local] Open Scope float_scope.

Definition cos (x : float) : float :=
  if is_finite x then
    let c := RefLibm.cos x in
    if abs c <=? 1 then c else 1
  else nan.

#[export] Instance libm : Py.Libm := {|
  Py.libm_sin := RefLibm.sin;
  Py.libm_cos := cos;
  Py.libm_atan2 := RefLibm.atan2;
  Py.libm_pow := RefLibm.pow
|}.

End RefLibmBounded.

(* ================================================================== *)
(** * Facts about binary64 arithmetic *)
(* ================================================================== *)

Module B64Facts.
Import B64.

#[local] Open Scope float_scope.

(** ** On the specification side *)

Lemma SFopp_involutive (a : spec_float) : SFopp (SFopp a) = a.
Proof. destruct a; simpl; rewrite ?negb_involutive; reflexivity. Qed.

Lemma SFabs_opp (a : spec_float) : SFabs (SFopp a) = SFabs a.
Proof. destruct a; reflexivity. Qed.

Lemma binary_round_aux_negb (s : bool) (mx ex : Z) (lx : location) :
  binary_round_aux prec emax (negb s) mx ex lx
  = SFopp (binary_round_aux prec emax s mx ex lx).
Proof.
  unfold binary_round_aux.
  destruct (shr_fexp prec emax mx ex lx) as [mrs' e'].
  destruct (shr_fexp prec emax _ e' loc_Exact) as [mrs'' e''].
  destruct (shr_m mrs''); simpl; try reflexivity.
  destruct (Z.leb e'' (emax - prec)); reflexivity.
Qed.

Lemma binary_round_negb (s : bool) (m : positive) (e : Z) :
  binary_round prec emax (negb s) m e = SFopp (binary_round prec emax s m e).
Proof.
  unfold binary_round.
  destruct (shl_align m e _) as [mz ez].
  apply binary_round_aux_negb.
Qed.

Lemma binary_normalize_opp (m e : Z) :
  binary_normalize prec emax (- m) e false
  = match m with
    | Z0 => S754_zero false
    | _ => SFopp (binary_normalize prec emax m e false)
    end.
Proof.
  destruct m; simpl; try reflexivity.
  - apply (binary_round_negb false).
  - rewrite <- (binary_round_negb true). reflexivity.
Qed.

Lemma SFsub_swap (x y : spec_float) :
  SFsub prec emax y x = SFopp (SFsub prec emax x y)
  \/ SFsub prec emax y x = SFsub prec emax x y.
Proof.
  destruct x as [sx|sx| |sx mx ex], y as [sy|sy| |sy my ey];
    try (destruct sx, sy; simpl; auto; fail);
    try (destruct sx; simpl; auto; fail);
    try (destruct sy; simpl; auto; fail);
    try (simpl; auto; fail).
  unfold SFsub. rewrite (Z.min_comm ey ex).
  set (ez := Z.min ex ey).
  set (A := cond_Zopp sx (Zpos (fst (shl_align mx ex ez)))).
  set (B := cond_Zopp sy (Zpos (fst (shl_align my ey ez)))).
  replace (B - A)%Z with (- (A - B))%Z by lia.
  rewrite binary_normalize_opp.
  destruct (A - B)%Z; auto.
Qed.

Lemma SFdiv_opp_l (x y : spec_float) :
  SFdiv prec emax (SFopp x) y = SFopp (SFdiv prec emax x y).
Proof.
  destruct x as [sx|sx| |sx mx ex], y as [sy|sy| |sy my ey]; simpl;
    try reflexivity;
    try (destruct sx, sy; reflexivity).
  destruct (SFdiv_core_binary prec emax (Zpos mx) ex (Zpos my) ey) as [[mz ez] lz].
  rewrite <- binary_round_aux_negb. destruct sx, sy; reflexivity.
Qed.

Lemma SFmul_comm (x y : spec_float) : SFmul prec emax x y = SFmul prec emax y x.
Proof.
  destruct x as [sx|sx| |sx mx ex], y as [sy|sy| |sy my ey]; simpl;
    rewrite ?(xorb_comm sx sy); try reflexivity.
  rewrite (Pos.mul_comm mx my), (Z.add_comm ex ey). reflexivity.
Qed.

Lemma SFeqb_refl (a : spec_float) : SFeqb a a = negb (match a with S754_nan => true | _ => false end).
Proof.
  destruct a as [s|s| |s m e]; try (destruct s; reflexivity); try reflexivity.
  unfold SFeqb, SFcompare. rewrite Z.compare_refl, Pos.compare_cont_refl.
  destruct s; reflexivity.
Qed.

(** ** The order, through a rank in a lexicographic order on integers *)

Lemma SFltb_rank (a b : spec_float) :
  SFltb a b = true <-> not_nan a /\ not_nan b /\ lex_lt (rank a) (rank b).
Proof.
  unfold SFltb.
  destruct a as [sa|sa| |sa ma ea], b as [sb|sb| |sb mb eb]; simpl;
    try (destruct sa); try (destruct sb); simpl;
    try (split; [discriminate | intros (? & ? & ?); try tauto; lia]);
    try (split; [intros _; repeat split; lia | reflexivity]).
  all: rewrite ?Pos.compare_cont_spec; simpl;
    destruct (Z.compare_spec ea eb); simpl;
    try (destruct (Pos.compare_spec ma mb); simpl);
    (split; [ try discriminate; intros _; repeat split; lia
            | intros (_ & _ & ?); try reflexivity; lia ]).
Qed.

Lemma SFleb_rank (a b : spec_float) :
  SFleb a b = true <-> not_nan a /\ not_nan b /\ ~ lex_lt (rank b) (rank a).
Proof.
  unfold SFleb.
  destruct a as [sa|sa| |sa ma ea], b as [sb|sb| |sb mb eb]; simpl;
    try (destruct sa); try (destruct sb); simpl;
    try (split; [discriminate | intros (? & ? & ?); try tauto; lia]);
    try (split; [intros _; repeat split; lia | reflexivity]).
  all: rewrite ?Pos.compare_cont_spec; simpl;
    destruct (Z.compare_spec ea eb); simpl;
    try (destruct (Pos.compare_spec ma mb); simpl);
    (split; [ try discriminate; intros _; repeat split; lia
            | intros (_ & _ & ?); try reflexivity; lia ]).
Qed.

(** ** On primitive floats *)

Lemma opp_involutive (x : float) : - - x = x.
Proof. apply Prim2SF_inj. rewrite !opp_spec. apply SFopp_involutive. Qed.

Lemma abs_opp (x : float) : abs (- x) = abs x.
Proof. apply Prim2SF_inj. rewrite !abs_spec, opp_spec. apply SFabs_opp. Qed.

Lemma is_nan_spec (x : float) :
  is_nan x = match Prim2SF x with S754_nan => true | _ => false end.
Proof.
  unfold is_nan. rewrite FloatAxioms.eqb_spec, SFeqb_refl. apply negb_involutive.
Qed.

Lemma is_nan_opp (x : float) : is_nan (- x) = is_nan x.
Proof. rewrite !is_nan_spec, opp_spec. destruct (Prim2SF x); reflexivity. Qed.

Lemma is_infinity_opp (x : float) : is_infinity (- x) = is_infinity x.
Proof. unfold is_infinity. rewrite abs_opp. reflexivity. Qed.

Lemma is_finite_opp (x : float) : is_finite (- x) = is_finite x.
Proof. unfold is_finite. rewrite is_nan_opp, is_infinity_opp. reflexivity. Qed.

Lemma opp_nan_eq (x : float) : is_nan x = true -> - x = x.
Proof.
  rewrite is_nan_spec. intros Hx. apply Prim2SF_inj. rewrite opp_spec.
  destruct (Prim2SF x); try discriminate. reflexivity.
Qed.

Lemma Prim2SF_zero : Prim2SF 0 = S754_zero false.
Proof. reflexivity. Qed.

Lemma eqb_zero_opp (x : float) : (- x =? 0) = (x =? 0).
Proof.
  rewrite !FloatAxioms.eqb_spec, opp_spec, Prim2SF_zero.
  destruct (Prim2SF x) as [s|s| |s m e]; try reflexivity; destruct s; reflexivity.
Qed.

Lemma ltb_zero_opp (x : float) :
  is_nan x = false -> (x =? 0) = false -> (- x <? 0) = negb (x <? 0).
Proof.
  rewrite is_nan_spec, FloatAxioms.eqb_spec, !ltb_spec, opp_spec, Prim2SF_zero.
  destruct (Prim2SF x) as [s|s| |s m e]; try discriminate; intros _ _;
    destruct s; reflexivity.
Qed.

Lemma sub_swap (a b : float) : b - a = - (a - b) \/ b - a = a - b.
Proof.
  destruct (SFsub_swap (Prim2SF a) (Prim2SF b)) as [E|E]; [left|right];
    apply Prim2SF_inj; rewrite ?opp_spec, !sub_spec; exact E.
Qed.

Lemma div_opp_l (x y : float) : (- x) / y = - (x / y).
Proof. apply Prim2SF_inj. rewrite opp_spec, !div_spec, opp_spec. apply SFdiv_opp_l. Qed.

Lemma mul_comm (x y : float) : x * y = y * x.
Proof. apply Prim2SF_inj. rewrite !mul_spec. apply SFmul_comm. Qed.

Lemma not_nan_spec (x : float) : is_nan x = false <-> not_nan (Prim2SF x).
Proof. rewrite is_nan_spec. destruct (Prim2SF x); simpl; intuition discriminate. Qed.

Lemma leb_refl (x : float) : is_nan x = false -> (x <=? x) = true.
Proof.
  rewrite not_nan_spec, leb_spec, SFleb_rank. intros Hx.
  repeat split; try assumption.
  destruct (rank (Prim2SF x)) as [[? ?] ?]. simpl. lia.
Qed.

Lemma not_leb_ltb (x y : float) :
  is_nan x = false -> is_nan y = false -> (x <=? y) = false -> (y <? x) = true.
Proof.
  rewrite !not_nan_spec, ltb_spec, SFltb_rank. intros Hx Hy Hle.
  repeat split; try assumption.
  destruct (SFleb_rank (Prim2SF x) (Prim2SF y)) as [_ Hr].
  rewrite <- leb_spec in Hr.
  destruct (rank (Prim2SF x)) as [[? ?] ?], (rank (Prim2SF y)) as [[? ?] ?].
  simpl in *.
  assert (Hn : ~ ~ (z2 < z \/ z2 = z /\ (z3 < z0 \/ z3 = z0 /\ z4 < z1))%Z).
  { intros Hc. rewrite Hr in Hle by auto. discriminate. }
  lia.
Qed.

Lemma ltb_leb (x y : float) : (x <? y) = true -> (x <=? y) = true.
Proof.
  rewrite ltb_spec, leb_spec, SFltb_rank, SFleb_rank. intros (Hx & Hy & Hlt).
  repeat split; try assumption.
  destruct (rank (Prim2SF x)) as [[? ?] ?], (rank (Prim2SF y)) as [[? ?] ?].
  simpl in *. lia.
Qed.

Lemma leb_ltb_trans (x y z : float) :
  (x <=? y) = true -> (y <? z) = true -> (x <? z) = true.
Proof.
  rewrite !ltb_spec, leb_spec, !SFltb_rank, SFleb_rank.
  intros (Hx & Hy & Hle) (_ & Hz & Hlt).
  repeat split; try assumption.
  destruct (rank (Prim2SF x)) as [[? ?] ?], (rank (Prim2SF y)) as [[? ?] ?],
    (rank (Prim2SF z)) as [[? ?] ?].
  simpl in *. lia.
Qed.

End B64Facts.

(* ================================================================== *)
(** * Properties of app.py *)
(* ================================================================== *)

Module AppFacts.
Import Py App.

#[local] Open Scope string_scope.
#[local] Open Scope list_scope.

(** ** The advisory tables *)

(** C6: for every class identifier from 0 to 6 the lookup in [DISEASE_INFO]
    succeeds, and the record it returns has a non-empty list of precautions,
    a non-empty list of food precautions and a non-empty consultation
    statement. *)
Theorem DISEASE_INFO_total (k : Z) :
  0 <= k <= 6 ->
  exists r : info,
    table_get DISEASE_INFO k = Ok r
    /\ precautions r <> []
    /\ food_precautions r <> []
    /\ consultation r <> "".
Proof.
  intros Hk.
  assert (Hcases : k = 0 \/ k = 1 \/ k = 2 \/ k = 3 \/ k = 4 \/ k = 5 \/ k = 6) by lia.
  destruct Hcases as [-> | [-> | [-> | [-> | [-> | [-> | ->]]]]]];
    (eexists; split; [ vm_compute; reflexivity | repeat split; discriminate ]).
Qed.

Lemma DISEASE_INFO_total_witness :
  0 <= 4 <= 6
  /\ exists r : info,
       table_get DISEASE_INFO 4 = Ok r
       /\ precautions r <> []
       /\ food_precautions r <> []
       /\ consultation r <> "".
Proof.
  split; [ lia | apply (DISEASE_INFO_total 4); lia ].
Defined.

(** ** The class picked by [numpy.argmax] *)

Lemma argmax_from_range (l : list float) (mp : float) (best i : nat) :
  let r := argmax_from mp best i l in
  r = best \/ (i <= r < i + length l)%nat.
Proof.
  revert mp best i. induction l as [|x l IH]; intros mp best i; simpl.
  - left; reflexivity.
  - destruct (negb (x <=? mp)%float).
    + destruct (is_nan x).
      * right; lia.
      * destruct (IH x i (S i)) as [E | E]; right; lia.
    + destruct (IH mp best (S i)) as [E | E]; [left; exact E | right; lia].
Qed.

Lemma np_argmax_range (a : list (list float)) (i : nat) :
  np_argmax a = Ok i -> (i < length (concat a))%nat.
Proof.
  unfold np_argmax. destruct (concat a) as [|x l]; [discriminate|].
  intros [= <-]. destruct (is_nan x); simpl; [lia|].
  destruct (argmax_from_range l x 0 1) as [E | E]; lia.
Qed.

(** The scan keeps, as [mp] at position [best], an entry that no entry
    before the current position exceeds and that every entry before [best]
    is strictly below. *)
Lemma argmax_from_spec (l pre : list float) (mp : float) (best : nat) :
  Forall (fun x => is_nan x = false) l ->
  is_nan mp = false ->
  nth_error pre best = Some mp ->
  (forall j x, nth_error pre j = Some x -> (x <=? mp)%float = true) ->
  (forall j x, (j < best)%nat -> nth_error pre j = Some x -> (x <? mp)%float = true) ->
  exists m,
    nth_error (pre ++ l) (argmax_from mp best (length pre) l) = Some m
    /\ (forall j x, nth_error (pre ++ l) j = Some x -> (x <=? m)%float = true)
    /\ (forall j x, (j < argmax_from mp best (length pre) l)%nat ->
          nth_error (pre ++ l) j = Some x -> (x <? m)%float = true).
Proof.
  revert pre mp best.
  induction l as [|x l IH]; intros pre mp best Hl Hmp Hbest Hmax Hfirst; simpl.
  - rewrite app_nil_r. exists mp. auto.
  - apply Forall_cons_iff in Hl. destruct Hl as [Hx Hl].
    assert (Hlen : length (pre ++ [x]) = S (length pre))
      by (rewrite length_app; simpl; lia).
    assert (Hcat : (pre ++ [x]) ++ l = pre ++ x :: l)
      by (rewrite <- app_assoc; reflexivity).
    assert (Hb : (best < length pre)%nat)
      by (apply nth_error_Some; rewrite Hbest; discriminate).
    destruct (x <=? mp)%float eqn:Hle; simpl.
    + specialize (IH (pre ++ [x]) mp best Hl Hmp).
      rewrite Hlen, Hcat in IH. apply IH.
      * rewrite nth_error_app1 by exact Hb. exact Hbest.
      * intros j y Hj.
        destruct (Nat.lt_ge_cases j (length pre)) as [Hlt | Hge].
        -- rewrite nth_error_app1 in Hj by exact Hlt. eauto.
        -- rewrite nth_error_app2 in Hj by exact Hge.
           destruct (j - length pre)%nat as [|n]; simpl in Hj.
           ++ injection Hj as <-. exact Hle.
           ++ destruct n; discriminate.
      * intros j y Hlt Hj.
        rewrite nth_error_app1 in Hj by lia. eauto.
    + rewrite Hx.
      pose proof (B64Facts.not_leb_ltb x mp Hx Hmp Hle) as Hgt.
      specialize (IH (pre ++ [x]) x (length pre) Hl Hx).
      rewrite Hlen, Hcat in IH. apply IH.
      * rewrite nth_error_app2 by lia. rewrite Nat.sub_diag. reflexivity.
      * intros j y Hj.
        destruct (Nat.lt_ge_cases j (length pre)) as [Hlt | Hge].
        -- rewrite nth_error_app1 in Hj by exact Hlt.
           apply B64Facts.ltb_leb.
           apply (B64Facts.leb_ltb_trans y mp x); eauto.
        -- rewrite nth_error_app2 in Hj by exact Hge.
           destruct (j - length pre)%nat as [|n]; simpl in Hj.
           ++ injection Hj as <-. apply B64Facts.leb_refl. exact Hx.
           ++ destruct n; discriminate.
      * intros j y Hlt Hj.
        rewrite nth_error_app1 in Hj by exact Hlt.
        apply (B64Facts.leb_ltb_trans y mp x); eauto.
Qed.

(** C5: on a model output without NaN (the entries of a probability
    distribution are at least 0), the predicted class is a position of the
    largest entry, and every entry before it is strictly smaller: among
    equal largest entries the one with the lowest identifier is selected. *)
Theorem pred_class_is_first_argmax (prediction : list (list float)) :
  concat prediction <> [] ->
  Forall (fun x => is_nan x = false) (concat prediction) ->
  exists (i : nat) (m : float),
    pred_class prediction = Ok i
    /\ nth_error (concat prediction) i = Some m
    /\ (forall j x, nth_error (concat prediction) j = Some x -> (x <=? m)%float = true)
    /\ (forall j x, (j < i)%nat ->
          nth_error (concat prediction) j = Some x -> (x <? m)%float = true).
Proof.
  unfold pred_class, np_argmax.
  destruct (concat prediction) as [|x l]; [congruence|].
  intros _ Hall. apply Forall_cons_iff in Hall. destruct Hall as [Hx Hl].
  rewrite Hx.
  destruct (argmax_from_spec l [x] x 0 Hl Hx) as (m & Hm & Hmax & Hfirst).
  - reflexivity.
  - intros [|[|j]] y Hj; simpl in Hj; try discriminate.
    injection Hj as <-. apply B64Facts.leb_refl. exact Hx.
  - intros j y Hj. lia.
  - exists (argmax_from x 0 1 l), m. simpl in *. auto.
Qed.

Lemma pred_class_is_first_argmax_witness :
  let prediction := [[0.1; 0.35; 0.05; 0.35; 0.05; 0.05; 0.05]%float] in
  pred_class prediction = Ok 1%nat
  /\ exists (i : nat) (m : float),
       pred_class prediction = Ok i
       /\ nth_error (concat prediction) i = Some m
       /\ (forall j x, nth_error (concat prediction) j = Some x -> (x <=? m)%float = true)
       /\ (forall j x, (j < i)%nat ->
             nth_error (concat prediction) j = Some x -> (x <? m)%float = true).
Proof.
  split; [ reflexivity | ].
  apply (pred_class_is_first_argmax
           [[0.1; 0.35; 0.05; 0.35; 0.05; 0.05; 0.05]%float]).
  - discriminate.
  - repeat constructor.
Defined.

(** ** The upload handler *)

(** C8: when the class predicted for an image is class 4, the page shows the
    label "Melanoma", the severity "Very High (dangerous)" and a
    consultation statement that contains "Urgent". *)
Theorem uploaded_melanoma (filename : string) (row : list float) :
  pred_class [row] = Ok 4%nat ->
  exists page : uploaded_page,
    uploaded filename [row] = Ok page
    /\ predictions page = "Melanoma"
    /\ severity_level page = "Very High (dangerous)"
    /\ contains "Urgent" (page_consultation page) = true.
Proof.
  intros Hc.
  pose proof (np_argmax_range [row] 4 Hc) as Hlen.
  simpl in Hlen. rewrite app_nil_r in Hlen.
  destruct (nth_error row 4) as [p|] eqn:Hp;
    [| apply nth_error_None in Hp; lia ].
  assert (Hinfo : exists r : info,
            table_get DISEASE_INFO 4 = Ok r
            /\ severity r = "Very High (dangerous)"
            /\ contains "Urgent" (consultation r) = true).
  { eexists. split; [ vm_compute; reflexivity | split; reflexivity ]. }
  destruct Hinfo as (r & Hr & Hsev & Hurgent).
  assert (Hlabel : table_get SKIN_CLASSES 4 = Ok "Melanoma") by reflexivity.
  unfold uploaded, index_0. rewrite Hc. cbn [bind].
  change (Z.of_nat 4) with 4. rewrite Hlabel, Hp. cbn [bind].
  rewrite Hr. cbn [bind].
  eexists. split; [reflexivity|]. cbn. auto.
Qed.

Lemma uploaded_melanoma_witness :
  let row := [0.01; 0.02; 0.03; 0.04; 0.8; 0.06; 0.04]%float in
  pred_class [row] = Ok 4%nat
  /\ exists page : uploaded_page,
       uploaded "lesion.jpg" [row] = Ok page
       /\ predictions page = "Melanoma"
       /\ severity_level page = "Very High (dangerous)"
       /\ contains "Urgent" (page_consultation page) = true.
Proof.
  split; [ reflexivity | ].
  apply (uploaded_melanoma "lesion.jpg"
           [0.01; 0.02; 0.03; 0.04; 0.8; 0.06; 0.04]%float).
  reflexivity.
Defined.

(** ** The location of a lookup *)

Lemma coercible_not_empty (s : string) (x : float) :
  py_float (VStr s) = Ok x -> (s =? "") = false.
Proof.
  destruct s as [|c s]; [ intros Hraise; vm_compute in Hraise; discriminate | reflexivity ].
Qed.

(** C2: when [lat] or [lng] is absent the lookup works with the default
    coordinate, which reads as (16.3067, 80.4365); when both are given as
    strings that [float] accepts, it works with these strings as they are,
    hence with the numbers they read as.  The coordinate it works with is
    the one an ok answer reports (and the one the distances are computed
    from, by [entry]). *)
Theorem location_default_or_given `{Libm} (lat lng : option string) :
  (lat = None \/ lng = None ->
     location lat lng = (DEFAULT_LAT, DEFAULT_LNG)
     /\ py_float (VStr DEFAULT_LAT) = Ok 16.3067%float
     /\ py_float (VStr DEFAULT_LNG) = Ok 80.4365%float)
  /\ (forall (a b : string) (x y : float),
        lat = Some a -> lng = Some b ->
        py_float (VStr a) = Ok x -> py_float (VStr b) = Ok y ->
        location lat lng = (a, b))
  /\ (forall (fetched : result value) (la ln : string) (hs : list hospital),
        nearby_hospitals lat lng fetched = status_ok la ln hs ->
        location lat lng = (la, ln)).
Proof.
  split; [| split].
  - intros Habsent. repeat split.
    destruct Habsent as [-> | ->]; [ | destruct lat ]; reflexivity.
  - intros a b x y -> -> Ha Hb.
    unfold location, not_.
    rewrite (coercible_not_empty a x Ha), (coercible_not_empty b y Hb).
    reflexivity.
  - intros fetched la ln hs. unfold nearby_hospitals.
    destruct (location lat lng) as [a b].
    destruct (let* results := fetched in let* items := iter results in
              for_results a b [] items);
      [ intros [= <- <- _]; reflexivity | discriminate ].
Qed.

Lemma location_default_or_given_witness :
  (location None (Some "80.5") = (DEFAULT_LAT, DEFAULT_LNG)
   /\ py_float (VStr DEFAULT_LAT) = Ok 16.3067%float
   /\ py_float (VStr DEFAULT_LNG) = Ok 80.4365%float)
  /\ (py_float (VStr "16.5") = Ok 16.5%float
      /\ py_float (VStr "80.5") = Ok 80.5%float
      /\ location (Some "16.5") (Some "80.5") = ("16.5", "80.5")).
Proof.
  pose proof (location_default_or_given (H := RefLibm.libm) None (Some "80.5")) as Habsent.
  pose proof (location_default_or_given (H := RefLibm.libm) (Some "16.5") (Some "80.5"))
    as Hgiven.
  split.
  - apply (proj1 Habsent). left; reflexivity.
  - split; [ reflexivity | split; [ reflexivity | ] ].
    apply (proj1 (proj2 Hgiven) "16.5" "80.5" 16.5%float 80.5%float); reflexivity.
Defined.

(** C9: when one of [lat] and [lng] is absent or empty, both coordinates are
    the default ones: the value that was given is dropped, and the lookup
    answers as it does to a request that gives neither. *)
Theorem location_partial_is_default `{Libm} (lat lng : option string) :
  lat = None \/ lat = Some "" \/ lng = None \/ lng = Some "" ->
  location lat lng = (DEFAULT_LAT, DEFAULT_LNG)
  /\ forall fetched : result value,
       nearby_hospitals lat lng fetched = nearby_hospitals None None fetched.
Proof.
  intros Hpart.
  assert (Hloc : location lat lng = (DEFAULT_LAT, DEFAULT_LNG)).
  { destruct lat as [a|], lng as [b|]; try reflexivity.
    unfold location, not_.
    destruct Hpart as [Ha | [Ha | [Hb | Hb]]]; try discriminate.
    - injection Ha as ->. reflexivity.
    - injection Hb as ->. rewrite orb_true_r. reflexivity. }
  split; [exact Hloc|].
  intros fetched. unfold nearby_hospitals. rewrite Hloc. reflexivity.
Qed.

Lemma location_partial_is_default_witness :
  let fetched :=
    Ok (VList [VDict [("lat", VStr "16.31"); ("lon", VStr "80.44")]]) in
  location (Some "17.0") None = (DEFAULT_LAT, DEFAULT_LNG)
  /\ nearby_hospitals (H := RefLibm.libm) (Some "17.0") None fetched
     = nearby_hospitals (H := RefLibm.libm) None None fetched.
Proof.
  intros fetched.
  destruct (location_partial_is_default (H := RefLibm.libm) (Some "17.0") None) as [Hl Hn].
  - right; right; left; reflexivity.
  - split; [ exact Hl | exact (Hn fetched) ].
Defined.

(** C7: when the provider returns no candidate, the lookup answers with
    status ok and an empty list of hospitals. *)
Theorem nearby_hospitals_no_candidates `{Libm} (lat lng : option string) :
  nearby_hospitals lat lng (Ok (VList []))
  = status_ok (fst (location lat lng)) (snd (location lat lng)) [].
Proof.
  unfold nearby_hospitals. destruct (location lat lng) as [la ln]. reflexivity.
Qed.

(** ** The distance calculator *)




(** *** Symmetry *)

Lemma float_pow_2_opp `{Libm} (r : float) : float_pow_2 (- r) = float_pow_2 r.
Proof.
  unfold float_pow_2.
  rewrite B64Facts.is_nan_opp, B64Facts.is_infinity_opp, B64Facts.abs_opp,
    B64Facts.eqb_zero_opp.
  destruct (is_nan r) eqn:Hnan.
  { rewrite (B64Facts.opp_nan_eq r Hnan). reflexivity. }
  destruct (is_infinity r); [reflexivity|].
  destruct (r =? 0)%float eqn:Hzero; [reflexivity|].
  rewrite (B64Facts.ltb_zero_opp r Hnan Hzero).
  destruct (r <? 0)%float; cbn [negb]; rewrite ?B64Facts.opp_involutive; reflexivity.
Qed.

Lemma sin_squared_opp `{Libm} (x : float) :
  (forall u : float, libm_sin (- u) = (- libm_sin u)%float) ->
  (let* s := math_sin (- x) in float_pow_2 s)
  = (let* s := math_sin x in float_pow_2 s).
Proof.
  intros Hodd. unfold math_sin, math_1.
  rewrite Hodd, !B64Facts.is_nan_opp, B64Facts.is_infinity_opp,
    B64Facts.is_finite_opp.
  destruct (is_nan (libm_sin x) && negb (is_nan x)); [reflexivity|].
  destruct (is_infinity (libm_sin x) && is_finite x); [reflexivity|].
  cbn [bind]. apply float_pow_2_opp.
Qed.

Lemma sin_squared_half_swap `{Libm} (a b : float) :
  (forall u : float, libm_sin (- u) = (- libm_sin u)%float) ->
  (let* s := math_sin ((b - a) / 2) in float_pow_2 s)
  = (let* s := math_sin ((a - b) / 2) in float_pow_2 s).
Proof.
  intros Hodd.
  destruct (B64Facts.sub_swap a b) as [E | E]; rewrite E; [|reflexivity].
  rewrite B64Facts.div_opp_l. apply sin_squared_opp. exact Hodd.
Qed.

Lemma bind_sin_squared `{Libm} {A} (x : float) (k : float -> result A) :
  (let* s := math_sin x in let* p := float_pow_2 s in k p)
  = (let* p := (let* s := math_sin x in float_pow_2 s) in k p).
Proof. destruct (math_sin x); reflexivity. Qed.

(** C10: the distance calculator is symmetric in its two points, for every C
    library whose sine is an odd function: on all arguments, numeric or not,
    [calculate_distance lat1 lon1 lat2 lon2] is
    [calculate_distance lat2 lon2 lat1 lon1]. *)
Theorem calculate_distance_symmetric `{Libm} (lat1 lon1 lat2 lon2 : value) :
  (forall u : float, libm_sin (- u) = (- libm_sin u)%float) ->
  calculate_distance lat1 lon1 lat2 lon2 = calculate_distance lat2 lon2 lat1 lon1.
Proof.
  intros Hodd. unfold calculate_distance, calculate_distance_try.
  destruct (py_float lat1) as [f1|e1], (py_float lon1) as [f2|e2],
    (py_float lat2) as [f3|e3], (py_float lon2) as [f4|e4];
    cbn [bind]; try reflexivity.
  rewrite !bind_sin_squared.
  rewrite (sin_squared_half_swap (math_radians f1) (math_radians f3) Hodd).
  destruct (let* s := math_sin ((math_radians f1 - math_radians f3) / 2) in float_pow_2 s)
    as [p1|]; cbn [bind]; [|reflexivity].
  destruct (math_cos (math_radians f1)) as [c1|], (math_cos (math_radians f3)) as [c3|];
    cbn [bind]; try reflexivity.
  rewrite !bind_sin_squared.
  rewrite (sin_squared_half_swap (math_radians f2) (math_radians f4) Hodd).
  destruct (let* s := math_sin ((math_radians f2 - math_radians f4) / 2) in float_pow_2 s)
    as [p2|]; cbn [bind]; [|reflexivity].
  rewrite (B64Facts.mul_comm c3 c1). reflexivity.
Qed.

Lemma nan_unique (x : float) : is_nan x = true -> x = nan.
Proof.
  rewrite B64Facts.is_nan_spec. intros Hx. apply Prim2SF_inj.
  destruct (Prim2SF x); try discriminate. reflexivity.
Qed.

Lemma RefLibm_sin_odd (u : float) : RefLibm.sin (- u) = (- RefLibm.sin u)%float.
Proof.
  unfold RefLibm.sin. rewrite B64Facts.eqb_zero_opp.
  destruct (u =? 0)%float eqn:Hzero; [reflexivity|].
  destruct (is_nan u) eqn:Hnan.
  - rewrite (nan_unique u Hnan). reflexivity.
  - rewrite (B64Facts.ltb_zero_opp u Hnan Hzero).
    destruct (u <? 0)%float; cbn [negb];
      rewrite ?B64Facts.opp_involutive; reflexivity.
Qed.

Lemma calculate_distance_symmetric_witness :
  (forall u : float, RefLibm.sin (- u) = (- RefLibm.sin u)%float)
  /\ calculate_distance (H := RefLibm.libm)
       (VStr "16.3067") (VStr "80.4365") (VStr "16.5") (VStr "80.6")
     = calculate_distance (H := RefLibm.libm)
         (VStr "16.5") (VStr "80.6") (VStr "16.3067") (VStr "80.4365").
Proof.
  split; [ exact RefLibm_sin_odd | ].
  exact (calculate_distance_symmetric (H := RefLibm.libm)
           (VStr "16.3067") (VStr "80.4365") (VStr "16.5") (VStr "80.6")
           RefLibm_sin_odd).
Defined.

(** ** The hospital lookup *)

Lemma entry_complete `{Libm} (la ln : string) (r : value) :
  complete r = true ->
  exists h : hospital, entry la ln r = Ok h /\ entry_of la ln r h.
Proof.
  destruct r as [ | | | | | |d]; try discriminate.
  unfold complete, entry, entry_of, subscript, get.
  destruct (assoc "lat" d) as [rlat|]; [|discriminate].
  destruct (assoc "lon" d) as [rlon|]; [|discriminate].
  destruct (assoc "display_name" d) as [nm|];
    (destruct (assoc "address" d) as [[ | | | | | |ad]|]; try discriminate; intros _;
     cbn [bind]; [ destruct (assoc "road" ad) as [road|] | ];
     cbn [bind assoc]; eexists; (split; [reflexivity|]);
     exists rlat, rlon; repeat split).
Qed.





(** ** Running the model *)

(** [float] on strings: digits with underscores, exponents, surrounding
    blanks and the words inf and nan are read; the rest raises. *)
Example float_of_string_samples :
  map float_of_string
    ["16.3067"; " -1_0.5e+1 "; ".5"; "1."; "-Infinity";
     ""; "abc"; "1e"; "1__0"; "16,3"; "- 1"]
  = [Some 16.3067%float; Some (-105)%float; Some 0.5%float; Some 1%float;
     Some neg_infinity; None; None; None; None; None; None].
Proof. vm_compute. reflexivity. Qed.

(** [round(x, 2)] rounds the exact binary value: 2.675 is stored below
    2.675 and goes down, 0.125 is a tie and goes to the even 0.12. *)
Example round2_samples :
  map B64.round2 [2.675; 0.125; 0.375; 10007.543398010286; -0.001; 1e300]%float
  = [2.67; 0.12; 0.38; 10007.54; -0; 1e300]%float.
Proof. vm_compute. reflexivity. Qed.

(** A lookup evaluated: the candidate with the unreadable latitude is listed
    with the distance [None], between two candidates with their distances. *)
Example nearby_hospitals_run :
  nearby_hospitals (H := RefLibm.libm) None None
    (Ok (VList [
       VDict [("display_name", VStr "City Hospital");
              ("lat", VStr "16.31"); ("lon", VStr "80.44")];
       VDict [("display_name", VStr "Care Clinic");
              ("lat", VStr "n/a"); ("lon", VStr "80.45")];
       VDict [("display_name", VStr "General Hospital");
              ("lat", VStr "16.35"); ("lon", VStr "80.47");
              ("address", VDict [("road", VStr "Ring Road")])]
     ]))
  = status_ok "16.3067" "80.4365" [
      {| name := VStr "City Hospital"; address := VStr "Not Provided";
         lat := VStr "16.31"; lng := VStr "80.44"; distance := Some 0.52%float |};
      {| name := VStr "Care Clinic"; address := VStr "Not Provided";
         lat := VStr "n/a"; lng := VStr "80.45"; distance := None |};
      {| name := VStr "General Hospital"; address := VStr "Ring Road";
         lat := VStr "16.35"; lng := VStr "80.47"; distance := Some 6%float |}
    ].
Proof. vm_compute. reflexivity. Qed.

(** With the series of [RefLibm], the two sample distances of the
    specification come out as 0.0 and 10007.54. *)
Example calculate_distance_same_point :
  calculate_distance (H := RefLibm.libm)
    (VFloat 16.3067) (VFloat 80.4365) (VFloat 16.3067) (VFloat 80.4365)
  = Some 0%float.
Proof. vm_compute. reflexivity. Qed.

Example calculate_distance_quarter_circle :
  calculate_distance (H := RefLibm.libm) (VInt 0) (VInt 0) (VInt 0) (VInt 90)
  = Some 10007.54%float.
Proof. vm_compute. reflexivity. Qed.

(** Rounding can take the haversine term above 1 between two points that
    are nearly opposite on the sphere; [math.sqrt (1 - a)] then raises, and
    the calculator returns [None] on numeric coordinates. *)
Example calculate_distance_opposite_points :
  calculate_distance (H := RefLibm.libm)
    (VFloat 2.5) (VFloat 0) (VFloat (-2.5)) (VFloat 180)
  = None.
Proof. vm_compute. reflexivity. Qed.

End AppFacts.

(* ================================================================== *)
(** * More facts about binary64 arithmetic: finite results *)
(* ================================================================== *)

Module B64More.
Import B64.

#[local] Open Scope Z_scope.





(** *** Shifting a mantissa to the right *)






(** *** No overflow below the largest exponent *)


(** *** Finite primitive floats *)

#[local] Open Scope float_scope.












End B64More.

(* ================================================================== *)
(** * Further properties of the handlers *)
(* ================================================================== *)

Module AppMore.
Import Py App.

#[local] Open Scope string_scope.
#[local] Open Scope list_scope.

(** ** The loop of the hospital lookup *)

(** An entry is built only for a complete result. *)
Lemma entry_ok_complete `{Libm} (la ln : string) (r : value) (h : hospital) :
  entry la ln r = Ok h -> complete r = true.
Proof.
  destruct r as [ | | | | | |d]; try discriminate.
  unfold entry, complete, subscript, get.
  destruct (assoc "lat" d) as [rlat|]; [|discriminate].
  destruct (assoc "lon" d) as [rlon|]; [|discriminate].
  cbn [bind].
  destruct (assoc "display_name" d) as [nm|]; cbn [bind];
    destruct (assoc "address" d) as [[ | | | | | |ad]|]; cbn [bind];
    try discriminate; reflexivity.
Qed.

(** What the loop returns, when it returns: the entries it had, then one
    entry per result, in order. *)
Lemma for_results_ok `{Libm} (la ln : string) (rs : list value) :
  forall acc hs : list hospital,
  for_results la ln acc rs = Ok hs ->
  exists hs' : list hospital,
    hs = acc ++ hs' /\ Forall2 (fun r h => entry la ln r = Ok h) rs hs'.
Proof.
  induction rs as [|r rs IH]; intros acc hs; cbn [for_results].
  - intros [= <-]. exists []. rewrite app_nil_r. split; [reflexivity | constructor].
  - destruct (entry la ln r) as [h|e] eqn:Hr; cbn [bind]; [|discriminate].
    intros Hloop. destruct (IH _ _ Hloop) as (hs' & -> & Hrel).
    exists (h :: hs'). rewrite <- app_assoc. split; [reflexivity|].
    constructor; assumption.
Qed.

(** The first result whose entry raises ends the loop with its exception. *)
Lemma for_results_raise `{Libm} (la ln : string) (pre post : list value)
    (r : value) (e : exn) :
  forallb complete pre = true ->
  entry la ln r = Raise e ->
  forall acc : list hospital,
  for_results la ln acc (pre ++ r :: post) = Raise e.
Proof.
  intros Hpre Hr. induction pre as [|p pre IH]; intros acc; cbn [app for_results].
  - rewrite Hr. reflexivity.
  - cbn [forallb] in Hpre. apply andb_prop in Hpre. destruct Hpre as [Hp Hpre].
    destruct (AppFacts.entry_complete la ln p Hp) as (h & -> & _). cbn [bind].
    apply IH. exact Hpre.
Qed.

(** What an ok answer to a list of results holds. *)
Lemma nearby_hospitals_ok_entries `{Libm} (lat lng : option string)
    (rs : list value) (la ln : string) (hs : list hospital) :
  nearby_hospitals lat lng (Ok (VList rs)) = status_ok la ln hs ->
  location lat lng = (la, ln)
  /\ Forall2 (fun r h => entry la ln r = Ok h) rs hs.
Proof.
  unfold nearby_hospitals. destruct (location lat lng) as [a b].
  cbn [bind iter].
  destruct (for_results a b [] rs) as [hs0|e] eqn:Hloop; [|discriminate].
  intros [= <- <- <-].
  destruct (for_results_ok a b rs [] hs0 Hloop) as (hs' & -> & Hrel).
  split; [reflexivity | exact Hrel].
Qed.

(** X1: the first candidate without a [lat] or a [lon] key ends the lookup with
    an error whose message is the repr of the key that was looked up first
    and not found: [lat] before [lon].  The candidates before it and after
    it do not change the answer. *)
Theorem nearby_hospitals_first_missing_key `{Libm} (lat lng : option string)
    (pre post : list value) (d : list (string * value)) :
  forallb complete pre = true ->
  assoc "lat" d = None \/ assoc "lon" d = None ->
  nearby_hospitals lat lng (Ok (VList (pre ++ VDict d :: post)))
  = status_error (match assoc "lat" d with
                  | None => "'lat'"
                  | Some _ => "'lon'"
                  end).
Proof.
  intros Hpre Hmiss. unfold nearby_hospitals.
  destruct (location lat lng) as [la ln]. cbn [bind iter].
  assert (Hr : entry la ln (VDict d)
               = Raise (KeyError (match assoc "lat" d with
                                  | None => "'lat'"
                                  | Some _ => "'lon'"
                                  end))).
  { unfold entry, subscript.
    destruct (assoc "lat" d) as [rlat|]; cbn [bind]; [|reflexivity].
    destruct Hmiss as [Hlat | Hlon]; [discriminate|].
    rewrite Hlon. reflexivity. }
  rewrite (for_results_raise la ln pre post (VDict d) _ Hpre Hr []).
  reflexivity.
Qed.

Lemma nearby_hospitals_first_missing_key_witness :
  let pre := [VDict [("lat", VStr "16.31"); ("lon", VStr "80.44")]] in
  let d := [("display_name", VStr "Care Clinic"); ("lat", VStr "16.32")] in
  let post := [VDict [("lat", VStr "16.35"); ("lon", VStr "80.47")]] in
  (forallb complete pre = true
   /\ (assoc "lat" d = None \/ assoc "lon" d = None))
  /\ nearby_hospitals (H := RefLibm.libm) None None
       (Ok (VList (pre ++ VDict d :: post)))
     = status_error "'lon'".
Proof.
  intros pre d post. split; [ split; [ reflexivity | right; reflexivity ] | ].
  apply (nearby_hospitals_first_missing_key (H := RefLibm.libm) None None pre post d).
  - reflexivity.
  - right; reflexivity.
Defined.

(** X2: an ok answer to a list of results lists all of them: every candidate was
    complete, and there are as many hospitals as candidates, however many
    the provider sent. *)
Theorem nearby_hospitals_ok_lists_all `{Libm} (lat lng : option string)
    (rs : list value) (la ln : string) (hs : list hospital) :
  nearby_hospitals lat lng (Ok (VList rs)) = status_ok la ln hs ->
  forallb complete rs = true /\ length hs = length rs.
Proof.
  intros Hok. destruct (nearby_hospitals_ok_entries lat lng rs la ln hs Hok) as [_ Hrel].
  clear Hok. split.
  - induction Hrel as [|r h rs' hs' Hh _ IH]; [reflexivity|].
    cbn [forallb]. rewrite (entry_ok_complete la ln r h Hh). exact IH.
  - symmetry. exact (Forall2_length _ _ _ Hrel).
Qed.

Lemma nearby_hospitals_ok_lists_all_witness :
  let rs := [
    VDict [("lat", VStr "16.31"); ("lon", VStr "80.44")];
    VDict [("lat", VNone); ("lon", VFloat 80.45)];
    VDict [("lat", VStr "16.33"); ("lon", VStr "80.46")];
    VDict [("lat", VStr "16.34"); ("lon", VStr "80.47")];
    VDict [("lat", VStr "16.35"); ("lon", VStr "80.48")];
    VDict [("lat", VStr "16.36"); ("lon", VStr "80.49")]
  ] in
  exists hs : list hospital,
    nearby_hospitals (H := RefLibm.libm) None None (Ok (VList rs))
    = status_ok "16.3067" "80.4365" hs
    /\ forallb complete rs = true
    /\ length hs = 6%nat.
Proof.
  intros rs. eexists. split; [ vm_compute; reflexivity | ].
  apply (nearby_hospitals_ok_lists_all (H := RefLibm.libm) None None rs
           "16.3067" "80.4365").
  vm_compute. reflexivity.
Defined.

Lemma Forall2_nth_error {A B} (R : A -> B -> Prop) (l : list A) (k : list B) :
  Forall2 R l k ->
  forall (i : nat) (a : A) (b : B),
  nth_error l i = Some a -> nth_error k i = Some b -> R a b.
Proof.
  induction 1 as [|a0 b0 l k Hab _ IH]; intros [|i] a b; cbn [nth_error];
    try discriminate.
  - intros [= <-] [= <-]. exact Hab.
  - apply IH.
Qed.

(** X3: in an ok answer, the entry of a candidate has its [display_name] as
    name, or "Unknown Hospital" when it has none, and the [road] of its
    [address] as address, or "Not Provided" when it has no address or the
    address has no road; [lat] and [lng] are the candidate's values as they
    came. *)
Theorem nearby_hospitals_entry_fields `{Libm} (qlat qlng : option string)
    (rs : list value) (la ln : string) (hs : list hospital)
    (i : nat) (d : list (string * value)) (h : hospital) :
  nearby_hospitals qlat qlng (Ok (VList rs)) = status_ok la ln hs ->
  nth_error rs i = Some (VDict d) ->
  nth_error hs i = Some h ->
  name h = default (VStr "Unknown Hospital") (assoc "display_name" d)
  /\ address h
     = match assoc "address" d with
       | Some (VDict ad) => default (VStr "Not Provided") (assoc "road" ad)
       | _ => VStr "Not Provided"
       end
  /\ Some (lat h) = assoc "lat" d
  /\ Some (lng h) = assoc "lon" d.
Proof.
  intros Hok Hr Hh.
  destruct (nearby_hospitals_ok_entries qlat qlng rs la ln hs Hok) as [_ Hrel].
  pose proof (Forall2_nth_error _ rs hs Hrel i (VDict d) h Hr Hh) as He.
  clear - He. revert He. unfold entry, subscript, get.
  destruct (assoc "lat" d) as [rlat|]; [|discriminate].
  destruct (assoc "lon" d) as [rlon|]; [|discriminate].
  cbn [bind].
  destruct (assoc "display_name" d) as [nm|]; cbn [bind];
    destruct (assoc "address" d) as [[ | | | | | |ad]|]; cbn [bind assoc];
    try discriminate;
    try (destruct (assoc "road" ad) as [road|]; cbn [bind]);
    intros [= <-]; repeat split.
Qed.

Lemma nearby_hospitals_entry_fields_witness :
  let d := [("lat", VStr "16.31"); ("lon", VStr "80.44");
            ("address", VDict [("suburb", VStr "Guntur")])] in
  let h := {| name := VStr "Unknown Hospital"; address := VStr "Not Provided";
              lat := VStr "16.31"; lng := VStr "80.44";
              distance := Some 0.52%float |} in
  nearby_hospitals (H := RefLibm.libm) None None (Ok (VList [VDict d]))
  = status_ok "16.3067" "80.4365" [h]
  /\ name h = default (VStr "Unknown Hospital") (assoc "display_name" d)
  /\ address h
     = match assoc "address" d with
       | Some (VDict ad) => default (VStr "Not Provided") (assoc "road" ad)
       | _ => VStr "Not Provided"
       end
  /\ Some (lat h) = assoc "lat" d
  /\ Some (lng h) = assoc "lon" d.
Proof.
  intros d h. split; [ vm_compute; reflexivity | ].
  apply (nearby_hospitals_entry_fields (H := RefLibm.libm) None None
           [VDict d] "16.3067" "80.4365" [h] 0 d h).
  - vm_compute. reflexivity.
  - reflexivity.
  - reflexivity.
Defined.

(** ** Candidates are handled one by one *)

Lemma for_results_of_entries `{Libm} (la ln : string)
    (rs : list value) (hs : list hospital) :
  Forall2 (fun r h => entry la ln r = Ok h) rs hs ->
  forall acc : list hospital, for_results la ln acc rs = Ok (acc ++ hs).
Proof.
  induction 1 as [|r h rs hs Hrh _ IH]; intros acc; cbn [for_results].
  - rewrite app_nil_r. reflexivity.
  - rewrite Hrh. cbn [bind]. rewrite IH, <- app_assoc. reflexivity.
Qed.

Lemma nearby_hospitals_of_entries `{Libm} (qlat qlng : option string)
    (rs : list value) (hs : list hospital) :
  Forall2 (fun r h => entry (fst (location qlat qlng)) (snd (location qlat qlng)) r = Ok h)
    rs hs ->
  nearby_hospitals qlat qlng (Ok (VList rs))
  = status_ok (fst (location qlat qlng)) (snd (location qlat qlng)) hs.
Proof.
  unfold nearby_hospitals. destruct (location qlat qlng) as [la ln].
  cbn [fst snd bind iter]. intros Hrel.
  rewrite (for_results_of_entries la ln rs hs Hrel []). reflexivity.
Qed.

(** X4: the lookup keeps nothing from one candidate to the next: the answer to
    two lists of candidates put end to end is ok exactly when the answers
    to both lists are, and its hospitals are theirs put end to end. *)
Theorem nearby_hospitals_concat `{Libm} (qlat qlng : option string)
    (rs1 rs2 : list value) (la ln : string) (hs : list hospital) :
  nearby_hospitals qlat qlng (Ok (VList (rs1 ++ rs2))) = status_ok la ln hs
  <-> exists hs1 hs2 : list hospital,
        nearby_hospitals qlat qlng (Ok (VList rs1)) = status_ok la ln hs1
        /\ nearby_hospitals qlat qlng (Ok (VList rs2)) = status_ok la ln hs2
        /\ hs = hs1 ++ hs2.
Proof.
  split.
  - intros Hok.
    destruct (nearby_hospitals_ok_entries _ _ _ _ _ _ Hok) as [Hloc Hrel].
    apply Forall2_app_inv_l in Hrel. destruct Hrel as (hs1 & hs2 & H1 & H2 & ->).
    exists hs1, hs2.
    pose proof (nearby_hospitals_of_entries qlat qlng rs1 hs1) as N1.
    pose proof (nearby_hospitals_of_entries qlat qlng rs2 hs2) as N2.
    rewrite Hloc in N1, N2. cbn [fst snd] in N1, N2. auto.
  - intros (hs1 & hs2 & Hok1 & Hok2 & ->).
    destruct (nearby_hospitals_ok_entries _ _ _ _ _ _ Hok1) as [Hloc H1].
    destruct (nearby_hospitals_ok_entries _ _ _ _ _ _ Hok2) as [_ H2].
    pose proof (nearby_hospitals_of_entries qlat qlng (rs1 ++ rs2) (hs1 ++ hs2)) as N.
    rewrite Hloc in N. cbn [fst snd] in N. apply N.
    apply Forall2_app; assumption.
Qed.

Lemma nearby_hospitals_concat_witness :
  let rs1 := [VDict [("lat", VStr "16.31"); ("lon", VStr "80.44")]] in
  let rs2 := [VDict [("lat", VStr "bad"); ("lon", VStr "80.45")];
              VDict [("lat", VStr "16.35"); ("lon", VStr "80.47")]] in
  exists hs1 hs2 : list hospital,
    nearby_hospitals (H := RefLibm.libm) None None (Ok (VList rs1))
    = status_ok "16.3067" "80.4365" hs1
    /\ nearby_hospitals (H := RefLibm.libm) None None (Ok (VList rs2))
       = status_ok "16.3067" "80.4365" hs2
    /\ nearby_hospitals (H := RefLibm.libm) None None (Ok (VList (rs1 ++ rs2)))
       = status_ok "16.3067" "80.4365" (hs1 ++ hs2).
Proof.
  intros rs1 rs2. eexists. eexists.
  split; [ vm_compute; reflexivity | ].
  split; [ vm_compute; reflexivity | ].
  apply (proj2 (nearby_hospitals_concat (H := RefLibm.libm) None None rs1 rs2
                  "16.3067" "80.4365" _)).
  eexists. eexists.
  split; [ vm_compute; reflexivity | ].
  split; [ vm_compute; reflexivity | reflexivity ].
Defined.

(** ** Answers of the provider that are not a list of candidates *)

(** X5: an exception of the request or of the JSON decoding becomes an error
    answer with the text of the exception.  A decoded answer that is not a
    list is an error too (a number, [null], an object such as an error
    report, a string), except for the empty object and the empty string,
    over which the loop does not run: they give status ok and no
    hospital. *)
Theorem nearby_hospitals_without_candidates `{Libm} (qlat qlng : option string) :
  (forall e : exn,
     nearby_hospitals qlat qlng (Raise e) = status_error (str_exn e))
  /\ (forall v : value,
       (forall l : list value, v <> VList l) ->
       if match v with
          | VDict [] | VStr "" => true
          | _ => false
          end
       then nearby_hospitals qlat qlng (Ok v)
            = status_ok (fst (location qlat qlng)) (snd (location qlat qlng)) []
       else exists msg : string,
            nearby_hospitals qlat qlng (Ok v) = status_error msg).
Proof.
  unfold nearby_hospitals. destruct (location qlat qlng) as [la ln].
  split; [ reflexivity | ].
  intros v Hnot.
  destruct v as [ | b | n | f | s | l | d ]; cbn [bind iter];
    try (eexists; reflexivity).
  - destruct s as [|c s]; [ reflexivity | eexists; reflexivity ].
  - destruct (Hnot l eq_refl).
  - destruct d as [|[k x] d]; [ reflexivity | eexists; reflexivity ].
Qed.

Lemma nearby_hospitals_without_candidates_witness :
  let v := VDict [("error", VStr "Unable to geocode")] in
  (forall l : list value, v <> VList l)
  /\ exists msg : string,
       nearby_hospitals (H := RefLibm.libm) (Some "16.5") (Some "80.5") (Ok v)
       = status_error msg.
Proof.
  intros v. split; [ discriminate | ].
  apply (proj2 (nearby_hospitals_without_candidates (H := RefLibm.libm)
                  (Some "16.5") (Some "80.5")) v).
  discriminate.
Defined.

(** ** What the lookup does with the coordinates of the request *)




(** X7: the coordinates an answer reports are never empty, and a request that
    sends them back gets the answer of the first request: resolving the
    location again changes nothing. *)
Theorem nearby_hospitals_reported_location_again `{Libm}
    (qlat qlng : option string) (fetched : result value) :
  let la := fst (location qlat qlng) in
  let ln := snd (location qlat qlng) in
  la <> "" /\ ln <> ""
  /\ location (Some la) (Some ln) = (la, ln)
  /\ nearby_hospitals (Some la) (Some ln) fetched
     = nearby_hospitals qlat qlng fetched.
Proof.
  intros la ln.
  assert (Hne : la <> "" /\ ln <> "").
  { subst la ln. unfold location, not_.
    destruct qlat as [a|], qlng as [b|]; try (split; discriminate).
    destruct (String.eqb_spec a "") as [->|Ha]; [ split; discriminate | ].
    destruct (String.eqb_spec b "") as [->|Hb]; [ split; discriminate | ].
    split; assumption. }
  destruct Hne as [Hla Hln].
  assert (Hagain : location (Some la) (Some ln) = (la, ln)).
  { unfold location at 1, not_.
    destruct (String.eqb_spec la "") as [E|_]; [ destruct (Hla E) | ].
    destruct (String.eqb_spec ln "") as [E|_]; [ destruct (Hln E) | ].
    reflexivity. }
  repeat split; try assumption.
  unfold nearby_hospitals. rewrite Hagain. subst la ln.
  destruct (location qlat qlng) as [a b]. reflexivity.
Qed.

(** ** The two tables *)

Lemma in_range_cases (k : Z) :
  0 <= k <= 6 -> k = 0 \/ k = 1 \/ k = 2 \/ k = 3 \/ k = 4 \/ k = 5 \/ k = 6.
Proof. lia. Qed.

Lemma SKIN_CLASSES_outside (k : Z) : ~ 0 <= k <= 6 -> SKIN_CLASSES !! k = None.
Proof.
  intros Hk. apply not_elem_of_list_to_map_1. cbn.
  rewrite !elem_of_cons, elem_of_nil. lia.
Qed.

Lemma DISEASE_INFO_outside (k : Z) : ~ 0 <= k <= 6 -> DISEASE_INFO !! k = None.
Proof.
  intros Hk. apply not_elem_of_list_to_map_1. cbn.
  rewrite !elem_of_cons, elem_of_nil. lia.
Qed.

Lemma SKIN_CLASSES_inside (k : Z) :
  0 <= k <= 6 -> exists label : string, table_get SKIN_CLASSES k = Ok label.
Proof.
  intros Hk.
  destruct (in_range_cases k Hk) as [-> | [-> | [-> | [-> | [-> | [-> | ->]]]]]];
    eexists; vm_compute; reflexivity.
Qed.

Lemma DISEASE_INFO_inside (k : Z) :
  0 <= k <= 6 -> exists r : info, table_get DISEASE_INFO k = Ok r.
Proof.
  intros Hk.
  destruct (in_range_cases k Hk) as [-> | [-> | [-> | [-> | [-> | [-> | ->]]]]]];
    eexists; vm_compute; reflexivity.
Qed.

(** X8: [SKIN_CLASSES] and [DISEASE_INFO] have the same keys, the integers from
    0 to 6: a class has a label exactly when it has an advisory record, and
    a lookup of any other integer in either table raises [KeyError]. *)
Theorem class_tables_same_keys (k : Z) :
  ((exists label : string, table_get SKIN_CLASSES k = Ok label) <-> 0 <= k <= 6)
  /\ ((exists r : info, table_get DISEASE_INFO k = Ok r) <-> 0 <= k <= 6)
  /\ (~ 0 <= k <= 6 ->
      (exists key : string, table_get SKIN_CLASSES k = Raise (KeyError key))
      /\ (exists key : string, table_get DISEASE_INFO k = Raise (KeyError key))).
Proof.
  assert (Hout : ~ 0 <= k <= 6 ->
            (exists key : string, table_get SKIN_CLASSES k = Raise (KeyError key))
            /\ (exists key : string, table_get DISEASE_INFO k = Raise (KeyError key))).
  { intros Hk. unfold table_get.
    rewrite (SKIN_CLASSES_outside k Hk), (DISEASE_INFO_outside k Hk).
    split; eexists; reflexivity. }
  split; [| split; [| exact Hout ] ].
  - split; [| apply SKIN_CLASSES_inside ].
    intros [label Hl]. destruct (Z_le_dec 0 k) as [H0|H0], (Z_le_dec k 6) as [H6|H6];
      try lia; destruct Hout as [[key Hk] _]; try lia; congruence.
  - split; [| apply DISEASE_INFO_inside ].
    intros [r Hr]. destruct (Z_le_dec 0 k) as [H0|H0], (Z_le_dec k 6) as [H6|H6];
      try lia; destruct Hout as [_ [key Hk]]; try lia; congruence.
Qed.

Lemma SKIN_CLASSES_label_inj (i j : Z) (label : string) :
  table_get SKIN_CLASSES i = Ok label ->
  table_get SKIN_CLASSES j = Ok label ->
  i = j.
Proof.
  intros Hi Hj.
  assert (Ri : 0 <= i <= 6).
  { destruct (Z_le_dec 0 i), (Z_le_dec i 6); try lia;
      unfold table_get in Hi; rewrite SKIN_CLASSES_outside in Hi by lia; discriminate. }
  assert (Rj : 0 <= j <= 6).
  { destruct (Z_le_dec 0 j), (Z_le_dec j 6); try lia;
      unfold table_get in Hj; rewrite SKIN_CLASSES_outside in Hj by lia; discriminate. }
  destruct (in_range_cases i Ri) as [-> | [-> | [-> | [-> | [-> | [-> | ->]]]]]];
    vm_compute in Hi; injection Hi as <-;
    destruct (in_range_cases j Rj) as [-> | [-> | [-> | [-> | [-> | [-> | ->]]]]]];
    vm_compute in Hj; first [ reflexivity | discriminate ].
Qed.

(** ** The upload handler, beyond class 4 *)

(** What a page that [uploaded] returns is made of. *)
Lemma uploaded_ok_inv (filename : string) (prediction : list (list float))
    (page : uploaded_page) :
  uploaded filename prediction = Ok page ->
  exists (i : nat) (p : float) (label : string) (r : info),
    pred_class prediction = Ok i
    /\ index_0 prediction i = Ok p
    /\ table_get SKIN_CLASSES (Z.of_nat i) = Ok label
    /\ table_get DISEASE_INFO (Z.of_nat i) = Ok r
    /\ page = {| img_file := filename;
                 predictions := label;
                 acc := B64.round2 (p * 100);
                 severity_level := severity r;
                 page_precautions := precautions r;
                 page_food_precautions := food_precautions r;
                 page_consultation := consultation r |}.
Proof.
  unfold uploaded.
  destruct (pred_class prediction) as [i|]; cbn [bind]; [|discriminate].
  destruct (table_get SKIN_CLASSES (Z.of_nat i)) as [label|] eqn:Hl;
    cbn [bind]; [|discriminate].
  destruct (index_0 prediction i) as [p|] eqn:Hp; cbn [bind]; [|discriminate].
  destruct (table_get DISEASE_INFO (Z.of_nat i)) as [r|] eqn:Hr;
    cbn [bind]; [|discriminate].
  intros [= <-]. exists i, p, label, r. auto 10.
Qed.

(** X9: for the output of the model on one image, a row of one to seven
    entries, [uploaded] returns a page: its label and its advisory fields
    are those of one and the same class, the predicted one, and its
    confidence is the entry of that class times 100, rounded to two
    decimals. *)
Theorem uploaded_single_row (filename : string) (row : list float) :
  row <> [] ->
  (length row <= 7)%nat ->
  exists (i : nat) (p : float) (label : string) (r : info),
    pred_class [row] = Ok i
    /\ nth_error row i = Some p
    /\ table_get SKIN_CLASSES (Z.of_nat i) = Ok label
    /\ table_get DISEASE_INFO (Z.of_nat i) = Ok r
    /\ uploaded filename [row]
       = Ok {| img_file := filename;
               predictions := label;
               acc := B64.round2 (p * 100);
               severity_level := severity r;
               page_precautions := precautions r;
               page_food_precautions := food_precautions r;
               page_consultation := consultation r |}.
Proof.
  intros Hne Hlen.
  destruct (pred_class [row]) as [i|e] eqn:Hi.
  2:{ unfold pred_class, np_argmax in Hi. cbn [concat] in Hi.
      rewrite app_nil_r in Hi. destruct row; [ congruence | discriminate ]. }
  pose proof (AppFacts.np_argmax_range [row] i Hi) as Hrange.
  cbn [concat] in Hrange. rewrite app_nil_r in Hrange.
  destruct (nth_error row i) as [p|] eqn:Hp;
    [| apply nth_error_None in Hp; lia ].
  destruct (SKIN_CLASSES_inside (Z.of_nat i) ltac:(lia)) as [label Hl].
  destruct (DISEASE_INFO_inside (Z.of_nat i) ltac:(lia)) as [r Hr].
  exists i, p, label, r. repeat split; try assumption.
  unfold uploaded, index_0. rewrite Hi. cbn [bind].
  rewrite Hl, Hp. cbn [bind]. rewrite Hr. reflexivity.
Qed.

Lemma uploaded_single_row_witness :
  let row := [0.02; 0.9; 0.08]%float in
  (row <> [] /\ (length row <= 7)%nat)
  /\ exists (i : nat) (p : float) (label : string) (r : info),
       pred_class [row] = Ok i
       /\ nth_error row i = Some p
       /\ table_get SKIN_CLASSES (Z.of_nat i) = Ok label
       /\ table_get DISEASE_INFO (Z.of_nat i) = Ok r
       /\ uploaded "mole.png" [row]
          = Ok {| img_file := "mole.png";
                  predictions := label;
                  acc := B64.round2 (p * 100);
                  severity_level := severity r;
                  page_precautions := precautions r;
                  page_food_precautions := food_precautions r;
                  page_consultation := consultation r |}.
Proof.
  intros row. split; [ split; [ discriminate | cbn; lia ] | ].
  apply (uploaded_single_row "mole.png" row); [ discriminate | cbn; lia ].
Defined.

(** X10: when the position of the largest entry is 7 or more (an output wider
    than the seven classes), [uploaded] raises [KeyError] at the lookup of
    the label and returns no page. *)
Theorem uploaded_class_out_of_range (filename : string)
    (prediction : list (list float)) (i : nat) :
  pred_class prediction = Ok i ->
  (7 <= i)%nat ->
  exists key : string, uploaded filename prediction = Raise (KeyError key).
Proof.
  intros Hi Hge. unfold uploaded, table_get. rewrite Hi. cbn [bind].
  rewrite SKIN_CLASSES_outside by lia. eexists. reflexivity.
Qed.

Lemma uploaded_class_out_of_range_witness :
  let prediction := [[0.1; 0.1; 0.1; 0.1; 0.1; 0.1; 0.1; 0.3]%float] in
  (pred_class prediction = Ok 7%nat /\ (7 <= 7)%nat)
  /\ exists key : string, uploaded "mole.png" prediction = Raise (KeyError key).
Proof.
  intros prediction. split; [ split; [ reflexivity | lia ] | ].
  apply (uploaded_class_out_of_range "mole.png" prediction 7); [ reflexivity | lia ].
Defined.

(** X11: two pages with the same label carry the same advisory: severity,
    precautions, food precautions and consultation are determined by the
    label that is shown. *)
Theorem uploaded_label_determines_advisory
    (f1 f2 : string) (p1 p2 : list (list float)) (page1 page2 : uploaded_page) :
  uploaded f1 p1 = Ok page1 ->
  uploaded f2 p2 = Ok page2 ->
  predictions page1 = predictions page2 ->
  severity_level page1 = severity_level page2
  /\ page_precautions page1 = page_precautions page2
  /\ page_food_precautions page1 = page_food_precautions page2
  /\ page_consultation page1 = page_consultation page2.
Proof.
  intros H1 H2 Hlabel.
  destruct (uploaded_ok_inv f1 p1 page1 H1) as (i1 & q1 & l1 & r1 & _ & _ & Hl1 & Hr1 & ->).
  destruct (uploaded_ok_inv f2 p2 page2 H2) as (i2 & q2 & l2 & r2 & _ & _ & Hl2 & Hr2 & ->).
  cbn in Hlabel. subst l2.
  pose proof (SKIN_CLASSES_label_inj _ _ _ Hl1 Hl2) as Hsame.
  rewrite <- Hsame in Hr2. rewrite Hr1 in Hr2. injection Hr2 as <-.
  cbn. repeat split.
Qed.

Lemma uploaded_label_determines_advisory_witness :
  let p1 := [[0.1; 0.7; 0.2]%float] in
  let p2 := [[0.3; 0.4; 0.1; 0.1; 0.05; 0.03; 0.02]%float] in
  exists page1 page2 : uploaded_page,
    uploaded "a.png" p1 = Ok page1
    /\ uploaded "b.png" p2 = Ok page2
    /\ predictions page1 = predictions page2
    /\ severity_level page1 = severity_level page2
    /\ page_precautions page1 = page_precautions page2
    /\ page_food_precautions page1 = page_food_precautions page2
    /\ page_consultation page1 = page_consultation page2.
Proof.
  intros p1 p2. eexists. eexists.
  split; [ vm_compute; reflexivity | ].
  split; [ vm_compute; reflexivity | ].
  split; [ reflexivity | ].
  eapply (uploaded_label_determines_advisory "a.png" "b.png" p1 p2);
    vm_compute; reflexivity.
Defined.

(** ** A model output with NaN *)

Lemma leb_nan_l (x y : float) : is_nan x = true -> (x <=? y)%float = false.
Proof.
  rewrite B64Facts.is_nan_spec, leb_spec. destruct (Prim2SF x); try discriminate.
  reflexivity.
Qed.

Lemma argmax_from_first_nan (pre post : list float) (x : float) :
  Forall (fun y => is_nan y = false) pre ->
  is_nan x = true ->
  forall (mp : float) (best i : nat),
  argmax_from mp best i (pre ++ x :: post) = (i + length pre)%nat.
Proof.
  intros Hpre Hx. induction Hpre as [|p pre Hp _ IH]; intros mp best i; cbn.
  - rewrite (leb_nan_l x mp Hx), Hx. cbn. lia.
  - rewrite Hp. destruct (p <=? mp)%float; cbn; rewrite IH; lia.
Qed.

Lemma pred_class_first_nan (prediction : list (list float))
    (pre post : list float) (x : float) :
  concat prediction = pre ++ x :: post ->
  Forall (fun y => is_nan y = false) pre ->
  is_nan x = true ->
  pred_class prediction = Ok (length pre).
Proof.
  intros Hcat Hpre Hx. unfold pred_class, np_argmax. rewrite Hcat.
  destruct Hpre as [|p pre Hp Hpre]; cbn.
  - rewrite Hx. reflexivity.
  - rewrite Hp, (argmax_from_first_nan pre post x Hpre Hx). reflexivity.
Qed.

(** X12: when the output for an image holds a NaN among its first seven entries,
    the class shown is the position of the first NaN, whatever the other
    entries are, and the confidence shown is NaN. *)
Theorem uploaded_nan_output (filename : string) (pre post : list float) (x : float) :
  Forall (fun y => is_nan y = false) pre ->
  is_nan x = true ->
  (length pre < 7)%nat ->
  exists (page : uploaded_page) (label : string),
    uploaded filename [pre ++ x :: post] = Ok page
    /\ table_get SKIN_CLASSES (Z.of_nat (length pre)) = Ok label
    /\ predictions page = label
    /\ is_nan (acc page) = true.
Proof.
  intros Hpre Hx Hlen.
  assert (Hi : pred_class [pre ++ x :: post] = Ok (length pre)).
  { apply (pred_class_first_nan _ pre post x); [ | assumption | assumption ].
    cbn [concat]. apply app_nil_r. }
  destruct (SKIN_CLASSES_inside (Z.of_nat (length pre)) ltac:(lia)) as [label Hl].
  destruct (DISEASE_INFO_inside (Z.of_nat (length pre)) ltac:(lia)) as [r Hr].
  assert (Hp : nth_error (pre ++ x :: post) (length pre) = Some x).
  { rewrite nth_error_app2 by lia. rewrite Nat.sub_diag. reflexivity. }
  eexists. exists label.
  unfold uploaded, index_0. rewrite Hi. cbn [bind].
  rewrite Hl, Hp. cbn [bind]. rewrite Hr. cbn [bind].
  split; [ reflexivity | ]. split; [ reflexivity | ]. split; [ reflexivity | ].
  cbn [acc]. rewrite (AppFacts.nan_unique x Hx). reflexivity.
Qed.

Lemma uploaded_nan_output_witness :
  let pre := [0.2; 0.5]%float in
  let post := [0.9; nan; 0.1]%float in
  (Forall (fun y => is_nan y = false) pre
   /\ is_nan nan = true
   /\ (length pre < 7)%nat)
  /\ exists (page : uploaded_page) (label : string),
       uploaded "mole.png" [pre ++ nan :: post] = Ok page
       /\ table_get SKIN_CLASSES (Z.of_nat (length pre)) = Ok label
       /\ predictions page = label
       /\ is_nan (acc page) = true.
Proof.
  intros pre post.
  split; [ split; [ repeat constructor | split; [ reflexivity | cbn; lia ] ] | ].
  apply (uploaded_nan_output "mole.png" pre post nan);
    [ repeat constructor | reflexivity | cbn; lia ].
Defined.

(** ** The distance from a point to itself *)





End AppMore.
